(** * getMODIS: a shallow embedding of [getMODIS.py] and its specification

    The module is a thin client of the ORNL MODIS REST service.  The
    embedding keeps the Python structure:
    - Python values ([pyval]) cover what [json.loads] produces and what the
      caller may put into the search-parameter dict;
    - the caller's [search_params] dict is shared with [get_data], which
      mutates it ([pop], item assignment), so it lives in the world state;
    - every [requests.get] call is appended to the trace of issued requests,
      and the remote service is an oracle that may depend on that history;
    - Python exceptions are the [exn] type and propagate through a small
      state-and-exception monad [PyM]. *)

From Stdlib Require Import String List Bool Ascii Lia.
Set Warnings "-register-all".

Import ListNotations.
Open Scope string_scope.

(** ** Python values *)

Inductive pyval : Type :=
| PNone
| PBool (b : bool)
| PNum (repr : string)          (** an int or float, by its [repr] *)
| PStr (s : string)
| PList (l : list pyval)
| PDict (d : list (pyval * pyval)).

(** Hashable values (usable as dict keys) are the scalars. *)
Definition hashable (v : pyval) : bool :=
  match v with
  | PNone | PBool _ | PNum _ | PStr _ => true
  | PList _ | PDict _ => false
  end.

(** Key equality on hashable values.  On str keys, and on [None], it is
    Python's key equality.  Python also identifies [True], [1] and [1.0],
    which this model keeps apart (numbers by their [repr]); theorems about
    dict keys are therefore stated for str keys only. *)
Definition py_key_eqb (a b : pyval) : bool :=
  match a, b with
  | PNone, PNone => true
  | PBool x, PBool y => Bool.eqb x y
  | PNum x, PNum y => String.eqb x y
  | PStr x, PStr y => String.eqb x y
  | _, _ => false
  end.

(** [v != 'all'] is false exactly for the string ["all"]. *)
Definition py_eq_all (v : pyval) : bool :=
  match v with
  | PStr s => String.eqb s "all"
  | _ => false
  end.

(** ** Exceptions and the request record *)

Record request : Type := mkRequest {
  req_url : string;
  req_params : option (list (string * pyval));   (** [params=] of [requests.get] *)
  req_headers : option (list (string * string))  (** [headers=] of [requests.get] *)
}.

Inductive exn : Type :=
| ValueError (msg : string) (diff : list string)
| KeyError (k : pyval)
| TypeError (msg : string)
| TransportError (r : request)
| DecodeError (text : string).   (** [json.JSONDecodeError], in Python a subclass
                                     of [ValueError]; kept apart here *)

Inductive outcome (A : Type) : Type :=
| Ok (a : A)
| Raise (e : exn).
Arguments Ok {A} a.
Arguments Raise {A} e.

(** ** Dicts

    The search-parameter dict is an association list with string keys and
    unique keys, in insertion order, as a Python dict. *)

Definition sdict := list (string * pyval).

Fixpoint sget (k : string) (d : sdict) : option pyval :=
  match d with
  | [] => None
  | (k', v) :: t => if String.eqb k k' then Some v else sget k t
  end.

(** [d[k] = v]: overwrite in place, or append a new key. *)
Fixpoint sset (k : string) (v : pyval) (d : sdict) : sdict :=
  match d with
  | [] => [(k, v)]
  | (k', v') :: t => if String.eqb k k' then (k, v) :: t else (k', v') :: sset k v t
  end.

(** Removal of key [k] (a dict has at most one entry per key). *)
Definition sdel (k : string) (d : sdict) : sdict :=
  filter (fun kv => negb (String.eqb k (fst kv))) d.

(** Python dicts with arbitrary hashable keys (JSON objects and the
    all-bands result). *)
Fixpoint pget (k : pyval) (d : list (pyval * pyval)) : option pyval :=
  match d with
  | [] => None
  | (k', v) :: t => if py_key_eqb k k' then Some v else pget k t
  end.

Fixpoint pset (k v : pyval) (d : list (pyval * pyval)) : list (pyval * pyval) :=
  match d with
  | [] => [(k, v)]
  | (k', v') :: t => if py_key_eqb k k' then (k, v) :: t else (k', v') :: pset k v t
  end.

(** [d[k] = v] on a Python dict: the key must be hashable. *)
Definition pdict_setitem (d : list (pyval * pyval)) (k v : pyval)
  : outcome (list (pyval * pyval)) :=
  if hashable k then Ok (pset k v d) else Raise (TypeError "unhashable type").

(** [v[k]] for a string key [k]. *)
Definition py_getitem (v : pyval) (k : string) : outcome pyval :=
  match v with
  | PDict d => match pget (PStr k) d with
               | Some x => Ok x
               | None => Raise (KeyError (PStr k))
               end
  | PList _ => Raise (TypeError "list indices must be integers or slices, not str")
  | PStr _ => Raise (TypeError "string indices must be integers")
  | _ => Raise (TypeError "object is not subscriptable")
  end.

(** [iter(v)]: lists give their items, dicts their keys, strings their
    characters. *)
Definition py_iter (v : pyval) : outcome (list pyval) :=
  match v with
  | PList l => Ok l
  | PDict d => Ok (map fst d)
  | PStr s => Ok (map (fun c => PStr (String c EmptyString)) (list_ascii_of_string s))
  | _ => Raise (TypeError "object is not iterable")
  end.

Fixpoint map_outcome {A B} (f : A -> outcome B) (l : list A) : outcome (list B) :=
  match l with
  | [] => Ok []
  | x :: t => match f x with
              | Raise e => Raise e
              | Ok y => match map_outcome f t with
                        | Raise e => Raise e
                        | Ok ys => Ok (y :: ys)
                        end
              end
  end.

(** [a + b] with [a] a str: [b] must be a str too. *)
Definition str_add (a : string) (b : pyval) : outcome string :=
  match b with
  | PStr s => Ok (a ++ s)
  | _ => Raise (TypeError "can only concatenate str (not another type) to str")
  end.

(** [[band['band'] for band in bands['bands']]] *)
Definition band_names (bands : pyval) : outcome (list pyval) :=
  match py_getitem bands "bands" with
  | Raise e => Raise e
  | Ok l => match py_iter l with
            | Raise e => Raise e
            | Ok xs => map_outcome (fun band => py_getitem band "band") xs
            end
  end.

(** ** The state-and-exception monad *)

Record world : Type := mkWorld {
  search_params : sdict;      (** the caller's dict, shared with [get_data] *)
  sent : list request         (** requests issued so far, oldest first *)
}.

Definition PyM (A : Type) : Type := world -> outcome A * world.

Definition ret {A} (a : A) : PyM A := fun w => (Ok a, w).
Definition raise {A} (e : exn) : PyM A := fun w => (Raise e, w).
Definition lift {A} (o : outcome A) : PyM A := fun w => (o, w).
Definition bind {A B} (m : PyM A) (f : A -> PyM B) : PyM B :=
  fun w => match m w with
           | (Ok a, w') => f a w'
           | (Raise e, w') => (Raise e, w')
           end.

Notation "x <- m ;; k" := (bind m (fun x => k))
  (at level 61, m at next level, right associativity).
Notation "m ;;; k" := (bind m (fun _ => k))
  (at level 61, right associativity).

Definition get_sp : PyM sdict := fun w => (Ok (search_params w), w).

(** [search_params.pop(k)] *)
Definition sp_pop (k : string) : PyM pyval :=
  fun w => match sget k (search_params w) with
           | Some v => (Ok v, mkWorld (sdel k (search_params w)) (sent w))
           | None => (Raise (KeyError (PStr k)), w)
           end.

(** [search_params[k]] *)
Definition sp_getitem (k : string) : PyM pyval :=
  fun w => match sget k (search_params w) with
           | Some v => (Ok v, w)
           | None => (Raise (KeyError (PStr k)), w)
           end.

(** [search_params[k] = v] *)
Definition sp_setitem (k : string) (v : pyval) : PyM unit :=
  fun w => (Ok tt, mkWorld (sset k v (search_params w)) (sent w)).

(** ** The module *)

Definition modis_rest_api : string := "https://modis.ornl.gov/rst/api/v1/".
Definition json_header : list (string * string) := [("Accept", "application/json")].

Definition default_args : list string :=
  ["product"; "siteid"; "network"; "network_siteid"; "band"; "latitude";
   "longitude"; "startDate"; "endDate"; "kmAboveBelow"; "kmLeftRight";
   "email"; "uid"].

Definition is_default_arg (k : string) : bool :=
  existsb (String.eqb k) default_args.

(** [set(search_params.keys()) - set(default_args.keys())], as a list. *)
Definition key_diff (sp : sdict) : list string :=
  filter (fun k => negb (is_default_arg k)) (map fst sp).

Section Getmodis.

(** The remote service: the body ([response.text]) returned for a request,
    given the requests issued before it; [None] is a transport failure. *)
Variable server : list request -> request -> option string.
(** [json.loads]: [None] when the text is not JSON. *)
Variable json_loads : string -> option pyval.
(** [str()], as used by f-strings. *)
Variable py_str : pyval -> string.

(** [requests.get(url, params=..., headers=...)] followed by [.text]. *)
Definition requests_get (url : string) (params : option sdict)
    (headers : option (list (string * string))) : PyM string :=
  fun w =>
    let r := mkRequest url params headers in
    let w' := mkWorld (search_params w) (sent w ++ [r]) in
    match server (sent w) r with
    | Some text => (Ok text, w')
    | None => (Raise (TransportError r), w')
    end.

Definition json_loads_m (text : string) : PyM pyval :=
  match json_loads text with
  | Some v => ret v
  | None => raise (DecodeError text)
  end.

Definition get_products : PyM pyval :=
  text <- requests_get (modis_rest_api ++ "products") None (Some json_header) ;;
  json_loads_m text.

Definition get_bands (product : pyval) : PyM pyval :=
  let request_string := modis_rest_api ++ (py_str product ++ "/bands") in
  text <- requests_get request_string None (Some json_header) ;;
  json_loads_m text.

Definition get_dates (product longitude latitude : pyval) : PyM pyval :=
  let request_string := modis_rest_api ++ (py_str product ++ "/dates?") in
  let request_string := request_string ++ ("latitude=" ++ py_str latitude ++ "&") in
  let request_string := request_string ++ ("longitude=" ++ py_str longitude) in
  text <- requests_get request_string None (Some json_header) ;;
  json_loads_m text.

(** The loop of the all-bands branch. *)
Fixpoint fetch_bands (subset_url : string) (bands : list pyval)
    (results : list (pyval * pyval)) : PyM (list (pyval * pyval)) :=
  match bands with
  | [] => ret results
  | band :: rest =>
      sp_setitem "band" band ;;;
      params <- get_sp ;;
      text <- requests_get subset_url (Some params) None ;;
      result <- json_loads_m text ;;
      results <- lift (pdict_setitem results band result) ;;
      fetch_bands subset_url rest results
  end.

Definition get_data : PyM pyval :=
  search_params <- get_sp ;;
  match key_diff search_params with
  | (_ :: _) as diff => raise (ValueError "Invalid search paramters: " diff)
  | [] =>
      product <- sp_pop "product" ;;
      subset_url0 <- lift (str_add modis_rest_api product) ;;
      let subset_url := subset_url0 ++ "/subset?" in
      band <- sp_getitem "band" ;;
      if negb (py_eq_all band) then
        params <- get_sp ;;
        text <- requests_get subset_url (Some params) None ;;
        json_loads_m text
      else
        bands <- get_bands product ;;
        names <- lift (band_names bands) ;;
        results <- fetch_bands subset_url names [] ;;
        ret (PDict results)
  end.

(** The module's [__main__] block: a fresh dict of search terms, and the
    call [get_data(search_term)] whose result is handed to [pp.pprint] (the
    printing itself is not modelled). *)
Definition search_term : sdict :=
  [("product", PStr "MYD09A1"); ("latitude", PNum "39.56499");
   ("longitude", PNum "-121.55527"); ("band", PStr "sur_refl_b06");
   ("startDate", PStr "A2003101"); ("endDate", PStr "A2003111");
   ("kmAboveBelow", PNum "1"); ("kmLeftRight", PNum "1")].

Definition main_block : PyM pyval :=
  fun w => get_data (mkWorld search_term (sent w)).

(** ** The requests [get_data] issues *)

(** [modis_rest_api + product + '/subset?'] *)
Definition subset_url (p : string) : string := (modis_rest_api ++ p) ++ "/subset?".

(** The request of loop iteration [band], from the dict [base] that
    [product] was popped from. *)
Definition subset_request (url : string) (base : sdict) (band : pyval) : request :=
  mkRequest url (Some (sset "band" band base)) None.

(** A request to the subset resource: no header, and [product] is not a
    query parameter. *)
Definition subset_shape (url : string) (q : request) : Prop :=
  req_url q = url /\ req_headers q = None /\
  exists ps, req_params q = Some ps /\ sget "product" ps = None.

(** The dict [results] after [results[b] = v] for each pair, in order. *)
Definition results_step (acc : list (pyval * pyval)) (bv : pyval * pyval) :=
  pset (fst bv) (snd bv) acc.

Definition results_of (names vs : list pyval) : list (pyval * pyval) :=
  fold_left results_step (combine names vs) [].

(** The request [get_bands(product)] issues. *)
Definition bands_request (p : string) : request :=
  mkRequest (modis_rest_api ++ (py_str (PStr p) ++ "/bands")) None (Some json_header).

(** Each band's request, issued after the previous ones, returns a body
    that decodes to the corresponding value. *)
Inductive loop_ok (url : string) (base : sdict)
  : list request -> list pyval -> list pyval -> Prop :=
| loop_ok_nil h : loop_ok url base h [] []
| loop_ok_cons h b rest v vs text :
    server h (subset_request url base b) = Some text ->
    json_loads text = Some v ->
    loop_ok url base (h ++ [subset_request url base b]) rest vs ->
    loop_ok url base h (b :: rest) (v :: vs).

(** The request [r], issued after history [h], fails in transport or its
    body is not JSON. *)
Definition req_fails (h : list request) (r : request) : Prop :=
  server h r = None \/ exists text, server h r = Some text /\ json_loads text = None.

End Getmodis.

(** ** A concrete service, used to instantiate the theorems

    The band catalogue of [MOD09A1] lists [b1] then [b2]; a subset request
    answers with the requested band name as body, and [json.loads] wraps a
    body [b] as [{"band": b}].  [ex_server_b2_down] fails the [b2] request. *)

Definition ex_product : string := "MOD09A1".

Definition ex_server (h : list request) (r : request) : option string :=
  if String.eqb (req_url r) (modis_rest_api ++ (ex_product ++ "/bands")) then Some "BANDS"
  else match req_params r with
       | Some ps => match sget "band" ps with Some (PStr b) => Some b | _ => None end
       | None => None
       end.

Definition ex_server_b2_down (h : list request) (r : request) : option string :=
  match req_params r with
  | Some ps => match sget "band" ps with
               | Some (PStr "b2") => None
               | _ => ex_server h r
               end
  | None => ex_server h r
  end.

Definition ex_bands_doc : pyval :=
  PDict [(PStr "bands", PList [PDict [(PStr "band", PStr "b1")];
                               PDict [(PStr "band", PStr "b2")]])].

Definition ex_json_loads (text : string) : option pyval :=
  if String.eqb text "BANDS" then Some ex_bands_doc
  else Some (PDict [(PStr "band", PStr text)]).

Definition ex_py_str (v : pyval) : string :=
  match v with
  | PNone => "None"
  | PBool true => "True"
  | PBool false => "False"
  | PNum r => r
  | PStr s => s
  | PList _ | PDict _ => ""
  end.

Definition ex_b1_doc : pyval := PDict [(PStr "band", PStr "b1")].
Definition ex_b2_doc : pyval := PDict [(PStr "band", PStr "b2")].

(** A decoder whose band catalogue is [cat]. *)
Definition ex_json_loads_with (cat : pyval) (text : string) : option pyval :=
  if String.eqb text "BANDS" then Some cat
  else Some (PDict [(PStr "band", PStr text)]).

(** A service that answers every subset request with the body ["DATA"]. *)
Definition ex_server_any (h : list request) (r : request) : option string :=
  if String.eqb (req_url r) (modis_rest_api ++ (ex_product ++ "/bands")) then Some "BANDS"
  else Some "DATA".

(** A catalogue whose second band name is a list, not a string. *)
Definition ex_odd_bands_doc : pyval :=
  PDict [(PStr "bands", PList [PDict [(PStr "band", PStr "b1")];
                               PDict [(PStr "band", PList [])]])].

(** The search terms of the module's [__main__] block, with [band] given. *)
Definition ex_params (band : pyval) : sdict :=
  [("product", PStr ex_product); ("latitude", PNum "39.56499");
   ("longitude", PNum "-121.55527"); ("band", band);
   ("startDate", PStr "A2003101"); ("endDate", PStr "A2003111");
   ("kmAboveBelow", PNum "1"); ("kmLeftRight", PNum "1")].

(** ** Facts about strings, dicts and keys *)

Lemma string_app_assoc (a b c : string) : (a ++ b) ++ c = a ++ (b ++ c).
Proof. induction a as [|x a IH]; simpl; [reflexivity | now rewrite IH]. Qed.

Lemma sget_sdel_same (k : string) (d : sdict) : sget k (sdel k d) = None.
Proof.
  induction d as [|[k' v] t IH]; simpl; [reflexivity|].
  destruct (String.eqb_spec k k') as [->|Hne]; simpl; [exact IH|].
  destruct (String.eqb_spec k k'); [contradiction | exact IH].
Qed.

Lemma sget_sdel_other (k k' : string) (d : sdict) :
  k <> k' -> sget k' (sdel k d) = sget k' d.
Proof.
  intros Hne; induction d as [|[j v] t IH]; simpl; [reflexivity|].
  destruct (String.eqb_spec k j) as [->|Hkj]; simpl.
  - destruct (String.eqb_spec k' j) as [->|]; [congruence | exact IH].
  - destruct (String.eqb_spec k' j); [reflexivity | exact IH].
Qed.

Lemma sget_sset_same (k : string) (v : pyval) (d : sdict) : sget k (sset k v d) = Some v.
Proof.
  induction d as [|[j x] t IH]; simpl.
  - now rewrite String.eqb_refl.
  - destruct (String.eqb_spec k j); simpl.
    + now rewrite String.eqb_refl.
    + destruct (String.eqb_spec k j); [contradiction | exact IH].
Qed.

Lemma sget_sset_other (k k' : string) (v : pyval) (d : sdict) :
  k <> k' -> sget k' (sset k v d) = sget k' d.
Proof.
  intros Hne; induction d as [|[j x] t IH]; simpl.
  - destruct (String.eqb_spec k' k); [congruence | reflexivity].
  - destruct (String.eqb_spec k j) as [->|Hkj]; simpl.
    + destruct (String.eqb_spec k' j); [congruence | reflexivity].
    + destruct (String.eqb_spec k' j); [reflexivity | exact IH].
Qed.

Lemma sset_sset (k : string) (v v' : pyval) (d : sdict) :
  sset k v (sset k v' d) = sset k v d.
Proof.
  induction d as [|[j x] t IH]; simpl.
  - now rewrite String.eqb_refl.
  - destruct (String.eqb_spec k j); simpl.
    + now rewrite String.eqb_refl.
    + destruct (String.eqb_spec k j); [contradiction | now rewrite IH].
Qed.

Lemma key_diff_spec (sp : sdict) (k : string) :
  In k (key_diff sp) <-> In k (map fst sp) /\ ~ In k default_args.
Proof.
  unfold key_diff, is_default_arg. rewrite filter_In, negb_true_iff.
  split; intros [H1 H2]; split; auto.
  - intros Hin.
    assert (existsb (String.eqb k) default_args = true) as Ht.
    { apply existsb_exists. exists k. split; [exact Hin | apply String.eqb_refl]. }
    congruence.
  - destruct (existsb (String.eqb k) default_args) eqn:E; [|reflexivity].
    apply existsb_exists in E as [k' [Hk' Heq]].
    apply String.eqb_eq in Heq; subst k'. contradiction.
Qed.

Lemma key_diff_nil (sp : sdict) :
  (forall k, In k (map fst sp) -> In k default_args) -> key_diff sp = [].
Proof.
  intros Hall. destruct (key_diff sp) as [|k t] eqn:E; [reflexivity|].
  assert (In k (key_diff sp)) as Hin by (rewrite E; left; reflexivity).
  apply key_diff_spec in Hin as [H1 H2]. exfalso. exact (H2 (Hall k H1)).
Qed.

Lemma key_diff_cons (sp : sdict) :
  (exists k, In k (map fst sp) /\ ~ In k default_args) -> key_diff sp <> [].
Proof.
  intros [k Hk] E. apply key_diff_spec in Hk. rewrite E in Hk. exact Hk.
Qed.

Lemma py_key_eqb_spec (a b : pyval) :
  hashable a = true -> py_key_eqb a b = true <-> a = b.
Proof.
  intros Ha; destruct a; try discriminate; destruct b; simpl;
    split; intros H; try discriminate; try congruence.
  - apply Bool.eqb_prop in H; congruence.
  - inversion H; subst; apply Bool.eqb_reflx.
  - apply String.eqb_eq in H; congruence.
  - inversion H; subst; apply String.eqb_refl.
  - apply String.eqb_eq in H; congruence.
  - inversion H; subst; apply String.eqb_refl.
Qed.

Lemma py_key_eqb_sym (a b : pyval) : py_key_eqb a b = py_key_eqb b a.
Proof.
  destruct a, b; simpl; try reflexivity.
  - destruct b, b0; reflexivity.
  - apply String.eqb_sym.
  - apply String.eqb_sym.
Qed.

Lemma py_key_eqb_true (a b : pyval) : py_key_eqb a b = true -> a = b.
Proof.
  destruct a, b; simpl; intros H; try discriminate; try reflexivity.
  - apply Bool.eqb_prop in H; congruence.
  - apply String.eqb_eq in H; congruence.
  - apply String.eqb_eq in H; congruence.
Qed.

Lemma pget_pset (k b v : pyval) (d : list (pyval * pyval)) :
  pget k (pset b v d) = if py_key_eqb k b then Some v else pget k d.
Proof.
  induction d as [|[k' v'] t IH]; simpl; [reflexivity|].
  destruct (py_key_eqb b k') eqn:Ebk; simpl.
  - apply py_key_eqb_true in Ebk; subst k'. now destruct (py_key_eqb k b).
  - rewrite IH.
    destruct (py_key_eqb k k') eqn:E1, (py_key_eqb k b) eqn:E2; try reflexivity.
    apply py_key_eqb_true in E2; subst b.
    pose proof E1 as E1'. apply py_key_eqb_true in E1'; subst k'. congruence.
Qed.

Lemma pset_keys_in (k b v : pyval) (d : list (pyval * pyval)) :
  In k (map fst (pset b v d)) <-> k = b \/ In k (map fst d).
Proof.
  induction d as [|[k' v'] t IH]; simpl.
  - split; intros [H|[]]; left; congruence.
  - destruct (py_key_eqb b k') eqn:Ebk; simpl.
    + apply py_key_eqb_true in Ebk; subst k'.
      split; [intros [H|H]; [left; congruence | right; right; exact H]
             | intros [H|[H|H]]; [left; congruence | left; exact H | right; exact H]].
    + rewrite IH. tauto.
Qed.

Lemma pset_keys_nodup (b v : pyval) (d : list (pyval * pyval)) :
  hashable b = true -> NoDup (map fst d) -> NoDup (map fst (pset b v d)).
Proof.
  intros Hb; induction d as [|[k' v'] t IH]; simpl; intros Hnd.
  - constructor; [intros []| constructor].
  - inversion Hnd as [|? ? Hnin Hnd']; subst.
    destruct (py_key_eqb b k') eqn:Ebk; simpl.
    + apply py_key_eqb_true in Ebk; subst k'. constructor; assumption.
    + constructor; [|exact (IH Hnd')].
      rewrite pset_keys_in. intros [->|Hin]; [|contradiction].
      assert (py_key_eqb b b = true) by (apply py_key_eqb_spec; auto). congruence.
Qed.


Lemma find_app {A} (f : A -> bool) (l1 l2 : list A) :
  find f (l1 ++ l2) = match find f l1 with Some x => Some x | None => find f l2 end.
Proof.
  induction l1 as [|x l1 IH]; simpl; [reflexivity|].
  destruct (f x); [reflexivity | exact IH].
Qed.

Lemma pget_fold (k : pyval) (l acc : list (pyval * pyval)) :
  pget k (fold_left results_step l acc) =
  match find (fun bv => py_key_eqb k (fst bv)) (rev l) with
  | Some bv => Some (snd bv)
  | None => pget k acc
  end.
Proof.
  revert acc; induction l as [|x l IH]; intros acc; simpl; [reflexivity|].
  rewrite IH, find_app. unfold results_step. rewrite pget_pset. simpl.
  destruct (find _ (rev l)); [reflexivity|].
  destruct (py_key_eqb k (fst x)); reflexivity.
Qed.

Lemma keys_fold (k : pyval) (l acc : list (pyval * pyval)) :
  In k (map fst (fold_left results_step l acc)) <->
  In k (map fst acc) \/ In k (map fst l).
Proof.
  revert acc; induction l as [|x l IH]; intros acc; simpl; [tauto|].
  rewrite IH. unfold results_step. rewrite pset_keys_in. intuition (subst; auto).
Qed.

Lemma nodup_fold (l acc : list (pyval * pyval)) :
  Forall (fun bv => hashable (fst bv) = true) l ->
  NoDup (map fst acc) -> NoDup (map fst (fold_left results_step l acc)).
Proof.
  revert acc; induction l as [|x l IH]; intros acc Hh Hnd; simpl; [exact Hnd|].
  inversion Hh; subst. apply IH; [assumption|].
  apply pset_keys_nodup; assumption.
Qed.

Lemma Forall_combine_fst {A B} (P : A -> Prop) (l1 : list A) (l2 : list B) :
  Forall P l1 -> Forall (fun ab => P (fst ab)) (combine l1 l2).
Proof.
  intros H; revert l2; induction H as [|x l1 Hx Hl IH]; intros [|y l2]; simpl; constructor; auto.
Qed.

Lemma map_fst_combine {A B} (l1 : list A) (l2 : list B) :
  length l1 = length l2 -> map fst (combine l1 l2) = l1.
Proof.
  revert l2; induction l1 as [|x l1 IH]; intros [|y l2] Hl; simpl in *;
    try discriminate; [reflexivity|].
  rewrite IH by congruence. reflexivity.
Qed.

Lemma sdel_absent (k : string) (d : sdict) : sget k d = None -> sdel k d = d.
Proof.
  induction d as [|[j v] t IH]; simpl; intros H; [reflexivity|].
  destruct (String.eqb_spec k j); [discriminate|]. simpl. now rewrite IH.
Qed.


Lemma sget_in (k : string) (d : sdict) : In k (map fst d) <-> sget k d <> None.
Proof.
  induction d as [|[j v] t IH]; simpl; [split; [contradiction | congruence]|].
  destruct (String.eqb_spec k j) as [->|Hne].
  - split; [discriminate | auto].
  - rewrite <- IH. split; [intros [->|H]; [congruence | exact H] | auto].
Qed.

(** After a validated run the dict keys are still recognised: [product]
    is gone, [band] is recognised, and the other keys are those of the
    original dict. *)
Lemma key_diff_after (sp0 sp' : sdict) :
  key_diff sp0 = [] ->
  sget "product" sp' = None ->
  (forall k, k <> "product" -> k <> "band" -> sget k sp' = sget k sp0) ->
  key_diff sp' = [].
Proof.
  intros Hkd Hp Hk. apply key_diff_nil. intros k Hin.
  destruct (String.eqb_spec k "product") as [->|Hkp].
  - apply sget_in in Hin. contradiction.
  - destruct (String.eqb_spec k "band") as [->|Hkb]; [simpl; tauto|].
    apply sget_in in Hin. rewrite Hk in Hin by assumption. apply sget_in in Hin.
    destruct (in_dec string_dec k default_args) as [Hd|Hd]; [exact Hd|].
    exfalso. assert (Hx : In k (key_diff sp0)) by (apply key_diff_spec; auto).
    rewrite Hkd in Hx. exact Hx.
Qed.


Lemma py_getitem_no_value_error v k e :
  py_getitem v k = Raise e -> forall msg d, e <> ValueError msg d.
Proof.
  unfold py_getitem; intros H msg d ->.
  destruct v; try discriminate.
  destruct (pget (PStr k) d0); discriminate.
Qed.

Lemma map_outcome_raise {A B} (f : A -> outcome B) l e :
  map_outcome f l = Raise e -> exists x, In x l /\ f x = Raise e.
Proof.
  induction l as [|x t IH]; simpl; [discriminate|].
  destruct (f x) eqn:Ef; intros H.
  - destruct (map_outcome f t) eqn:Et; [discriminate|].
    inversion H; subst. destruct (IH eq_refl) as [y [Hy Hf]]. eauto.
  - inversion H; subst. eauto.
Qed.

Lemma band_names_no_value_error v e :
  band_names v = Raise e -> forall msg d, e <> ValueError msg d.
Proof.
  unfold band_names. destruct (py_getitem v "bands") as [l|e1] eqn:E1.
  - unfold py_iter. intros H msg d ->.
    destruct l; try discriminate;
      match type of H with
      | map_outcome _ _ = _ =>
          apply map_outcome_raise in H as [x [_ Hx]];
          exact (py_getitem_no_value_error _ _ _ Hx msg d eq_refl)
      end.
  - intros H; inversion H; subst. apply (py_getitem_no_value_error _ _ _ E1).
Qed.

Ltac unfold_m :=
  unfold bind, ret, raise, lift, sp_setitem, sp_getitem, sp_pop, get_sp,
    requests_get, json_loads_m, pdict_setitem in *;
  cbn -[String.append key_diff sdel py_eq_all band_names hashable] in *.

Section Loop.

Variable server : list request -> request -> option string.
Variable json_loads : string -> option pyval.
Variable py_str : pyval -> string.


Lemma loop_ok_length url base h names vs :
  loop_ok server json_loads url base h names vs -> length vs = length names.
Proof. induction 1; simpl; congruence. Qed.


Lemma fetch_bands_ok url base names vs h :
  loop_ok server json_loads url base h names vs ->
  Forall (fun b => hashable b = true) names ->
  forall sp acc,
  (forall b, sset "band" b sp = sset "band" b base) ->
  exists sp',
    fetch_bands server json_loads url names acc (mkWorld sp h) =
      (Ok (fold_left results_step (combine names vs) acc),
       mkWorld sp' (h ++ map (subset_request url base) names)) /\
    (names = [] -> sp' = sp) /\
    (names <> [] -> sp' = sset "band" (last names PNone) base).
Proof.
  induction 1 as [h|h b rest v vs text Hsrv Hjs Hok IH]; intros Hh sp acc Hsp.
  - exists sp. rewrite app_nil_r. split; [reflexivity|]. split; [auto|]. congruence.
  - inversion Hh as [|? ? Hb Hh']; subst.
    cbn [fetch_bands]. unfold_m. rewrite Hsp.
    unfold subset_request in Hsrv. rewrite Hsrv. rewrite Hjs, Hb.
    destruct (IH Hh' (sset "band" b base) (pset b v acc)) as [sp' [Hrun [Hnil Hcons]]].
    { intros b'. apply sset_sset. }
    exists sp'. split.
    + unfold_m. change (results_step acc (b, v)) with (pset b v acc).
      unfold subset_request in Hrun. rewrite Hrun, <- app_assoc. reflexivity.
    + split; [discriminate|]. intros _. destruct rest as [|b' rest'].
      * rewrite Hnil by reflexivity. reflexivity.
      * apply Hcons. discriminate.
Qed.

Lemma fetch_bands_fail url base pre vs h :
  loop_ok server json_loads url base h pre vs ->
  Forall (fun b => hashable b = true) pre ->
  forall b post sp acc,
  (forall b', sset "band" b' sp = sset "band" b' base) ->
  req_fails server json_loads (h ++ map (subset_request url base) pre) (subset_request url base b) ->
  exists e,
    fetch_bands server json_loads url (pre ++ b :: post) acc (mkWorld sp h) =
      (Raise e, mkWorld (sset "band" b base)
                        (h ++ map (subset_request url base) (pre ++ [b]))).
Proof.
  induction 1 as [h|h b0 rest v vs text Hsrv Hjs Hok IH];
    intros Hh b post sp acc Hsp Hfail.
  - simpl in *. rewrite app_nil_r in Hfail. cbn [fetch_bands]. unfold_m.
    rewrite Hsp. unfold subset_request in Hfail.
    destruct Hfail as [Hn | [text [Ht Hj]]].
    + rewrite Hn. eexists; reflexivity.
    + rewrite Ht, Hj. eexists; reflexivity.
  - inversion Hh as [|? ? Hb Hh']; subst. simpl.
    cbn [fetch_bands]. unfold_m. rewrite Hsp.
    unfold subset_request in Hsrv. rewrite Hsrv, Hjs, Hb.
    destruct (IH Hh' b post (sset "band" b0 base) (pset b0 v acc)) as [e Hrun].
    { intros b'. apply sset_sset. }
    { rewrite <- app_assoc. exact Hfail. }
    exists e. unfold_m. unfold subset_request in Hrun.
    rewrite Hrun, <- app_assoc. reflexivity.
Qed.

Lemma fetch_bands_inv url base names : forall acc w r w',
  fetch_bands server json_loads url names acc w = (r, w') ->
  (forall b, sset "band" b (search_params w) = sset "band" b base) ->
  sget "product" base = None ->
  sget "product" (search_params w) = None ->
  (exists new, sent w' = (sent w ++ new)%list /\ Forall (subset_shape url) new) /\
  (forall msg d, r <> Raise (ValueError msg d)) /\
  sget "product" (search_params w') = None /\
  (forall k, k <> "band" -> sget k (search_params w') = sget k (search_params w)) /\
  (w' = w \/ exists pre q b, sent w' = (pre ++ [q])%list /\
                             length (sent w) < length (sent w') /\
                             req_params q = Some (search_params w') /\
                             search_params w' = sset "band" b base).
Proof.
  induction names as [|b rest IH]; intros acc [sp h] r w' Hrun Hsp Hbase Hprod;
    simpl in Hsp, Hprod.
  - cbn [fetch_bands] in Hrun. unfold ret in Hrun. inversion Hrun; subst.
    split; [exists []; rewrite app_nil_r; split; [reflexivity | constructor]|].
    split; [discriminate|]. split; [exact Hprod|]. split; [reflexivity|]. left; reflexivity.
  - cbn [fetch_bands] in Hrun. unfold_m. rewrite Hsp in Hrun.
    set (q := {| req_url := url; req_params := Some (sset "band" b base);
                 req_headers := None |}) in Hrun.
    assert (Hq : subset_shape url q).
    { split; [reflexivity|]. split; [reflexivity|]. exists (sset "band" b base).
      split; [reflexivity|]. rewrite sget_sset_other by discriminate. exact Hbase. }
    assert (Hk : forall k, k <> "band" -> sget k (sset "band" b base) = sget k sp).
    { intros k Hkb. rewrite <- (Hsp b). apply sget_sset_other. congruence. }
    assert (Hp1 : sget "product" (sset "band" b base) = None).
    { rewrite sget_sset_other by discriminate. exact Hbase. }
    assert (Hlast : exists pre q' b', (h ++ [q] = pre ++ [q'])%list /\
              length h < length (h ++ [q]) /\
              req_params q' = Some (sset "band" b base) /\
              sset "band" b base = sset "band" b' base).
    { exists h, q, b. split; [reflexivity|].
      split; [rewrite length_app; simpl; lia | split; reflexivity]. }
    destruct (server h q) as [text|] eqn:Es;
      [destruct (json_loads text) as [v|] eqn:Ej;
       [destruct (hashable b) eqn:Eh|]|];
      unfold_m;
      try (inversion Hrun; subst; simpl;
           split; [exists [q]; split; [reflexivity | constructor; [exact Hq | constructor]]|];
           split; [discriminate|]; split; [exact Hp1|]; split; [exact Hk|];
           right; exact Hlast).
    destruct (IH (pset b v acc) (mkWorld (sset "band" b base) (h ++ [q])) r w' Hrun)
      as [[new [Hsent Hnew]] [Hnv [Hp' [Hk' Hw]]]]; simpl; auto.
    { intros b'. apply sset_sset. }
    split; [exists (q :: new); split; [rewrite Hsent; simpl; rewrite <- app_assoc; reflexivity
                                      | constructor; assumption]|].
    split; [exact Hnv|]. split; [exact Hp'|].
    split; [intros k Hkb; rewrite Hk' by exact Hkb; apply Hk; exact Hkb|].
    right. destruct Hw as [-> | [pre [q' [b' [H1 [H2 H3]]]]]]; [exact Hlast|].
    exists pre, q', b'. simpl in H2. rewrite length_app in H2. simpl in H2.
    split; [exact H1 | split; [lia | exact H3]].
Qed.

(** Running the loop over [pre ++ rest], where every band of [pre]
    succeeds, is running it over [rest] from the state after [pre]. *)
Lemma fetch_bands_app url base pre vs h :
  loop_ok server json_loads url base h pre vs ->
  Forall (fun b => hashable b = true) pre ->
  forall rest sp acc,
  (forall b, sset "band" b sp = sset "band" b base) ->
  exists sp',
    (forall b, sset "band" b sp' = sset "band" b base) /\
    fetch_bands server json_loads url (pre ++ rest)%list acc (mkWorld sp h) =
    fetch_bands server json_loads url rest (fold_left results_step (combine pre vs) acc)
      (mkWorld sp' (h ++ map (subset_request url base) pre)).
Proof.
  induction 1 as [h|h b rest0 v vs text Hsrv Hjs Hok IH]; intros Hh rest sp acc Hsp.
  - exists sp. rewrite app_nil_r. split; [exact Hsp | reflexivity].
  - inversion Hh as [|? ? Hb Hh']; subst. simpl ((b :: rest0) ++ rest)%list.
    cbn [fetch_bands]. unfold_m. rewrite Hsp.
    unfold subset_request in Hsrv. rewrite Hsrv. rewrite Hjs, Hb.
    destruct (IH Hh' rest (sset "band" b base) (pset b v acc)) as [sp' [Hsp' Hrun]].
    { intros b'. apply sset_sset. }
    exists sp'. split; [exact Hsp'|].
    unfold_m. change (results_step acc (b, v)) with (pset b v acc).
    unfold subset_request in Hrun. rewrite Hrun, <- app_assoc. reflexivity.
Qed.

End Loop.

Section GetData.

Variable server : list request -> request -> option string.
Variable json_loads : string -> option pyval.
Variable py_str : pyval -> string.

Lemma get_data_inv sp0 tr0 r w' :
  get_data server json_loads py_str (mkWorld sp0 tr0) = (r, w') ->
  key_diff sp0 = [] ->
  (exists new, sent w' = (tr0 ++ new)%list /\
     Forall (fun q => exists p, sget "product" sp0 = Some (PStr p) /\
                          (q = bands_request py_str p \/ subset_shape (subset_url p) q)) new /\
     (forall p v, sget "product" sp0 = Some (PStr p) -> sget "band" sp0 = Some v ->
                  new <> [])) /\
  (forall msg d, r <> Raise (ValueError msg d)) /\
  sget "product" (search_params w') = None /\
  (forall k, k <> "product" -> k <> "band" -> sget k (search_params w') = sget k sp0) /\
  (sget "band" sp0 = Some (PStr "all") ->
     (length (sent w') <= S (length tr0) /\ search_params w' = sdel "product" sp0) \/
     exists pre q b, sent w' = (pre ++ [q])%list /\ S (length tr0) < length (sent w') /\
                     req_params q = Some (search_params w') /\
                     search_params w' = sset "band" b (sdel "product" sp0)).
Proof.
  intros Hrun Hkd. unfold get_data in Hrun. unfold_m. rewrite Hkd in Hrun. cbn -[String.append key_diff sdel py_eq_all band_names hashable] in Hrun.
  assert (Hdel : forall k, k <> "product" -> sget k (sdel "product" sp0) = sget k sp0)
    by (intros k Hk; apply sget_sdel_other; congruence).
  destruct (sget "product" sp0) as [pv|] eqn:Ep.
  2:{ inversion Hrun; subst; simpl.
      split; [exists []; split; [now rewrite app_nil_r | split; [constructor | congruence]]|].
      split; [discriminate|]. split; [exact Ep|]. split; [reflexivity|].
      intros _. left. split; [lia | symmetry; apply sdel_absent; exact Ep]. }
  destruct pv as [| | |p| |]; cbn -[String.append key_diff sdel py_eq_all band_names hashable] in Hrun;
    try (inversion Hrun; subst; simpl;
         split; [exists []; split; [now rewrite app_nil_r | split; [constructor | congruence]]|];
         split; [discriminate|]; split; [apply sget_sdel_same|];
         split; [intros k Hk _; apply Hdel; exact Hk|];
         intros _; left; split; [lia | reflexivity]).
  rewrite (Hdel "band") in Hrun by discriminate.
  destruct (sget "band" sp0) as [bv|] eqn:Eb.
  2:{ inversion Hrun; subst; simpl.
      split; [exists []; split; [now rewrite app_nil_r | split; [constructor | congruence]]|].
      split; [discriminate|]. split; [apply sget_sdel_same|].
      split; [intros k Hk _; apply Hdel; exact Hk|]. discriminate. }
  set (sp1 := sdel "product" sp0) in *.
  assert (Hp1 : sget "product" sp1 = None) by apply sget_sdel_same.
  destruct (py_eq_all bv) eqn:Eall; cbn -[String.append key_diff sdel py_eq_all band_names hashable] in Hrun.
  - (* all bands *)
    unfold get_bands in Hrun. unfold_m.
    change (mkRequest (modis_rest_api ++ (py_str (PStr p) ++ "/bands")) None (Some json_header))
      with (bands_request py_str p) in Hrun.
    set (rb := bands_request py_str p) in Hrun.
    assert (Hrb : rb = bands_request py_str p) by reflexivity.
    destruct (server tr0 rb) as [btext|] eqn:Es; unfold_m;
      [destruct (json_loads btext) as [bdoc|] eqn:Ej; unfold_m;
       [destruct (band_names bdoc) as [names|e] eqn:En; unfold_m|]|];
      try (inversion Hrun; subst; simpl;
           split; [exists [rb]; split; [reflexivity | split;
                     [constructor; [exists p; split; [reflexivity | left; exact Hrb] | constructor]
                     | discriminate]]|];
           split; [intros msg d Heq; inversion Heq; subst;
                   eapply band_names_no_value_error; eassumption|];
           split; [exact Hp1|];
           split; [intros k Hk _; apply Hdel; exact Hk|];
           intros _; left; split; [rewrite length_app; simpl; lia | reflexivity]).
    2:{ inversion Hrun; subst; simpl.
        split; [exists [rb]; split; [reflexivity | split;
                  [constructor; [exists p; split; [reflexivity | left; exact Hrb] | constructor]
                  | discriminate]]|].
        split; [intros msg d Heq; inversion Heq; subst; exact (band_names_no_value_error _ _ En msg d eq_refl)|].
        split; [exact Hp1|].
        split; [intros k Hk _; apply Hdel; exact Hk|].
        intros _; left; split; [rewrite length_app; simpl; lia | reflexivity]. }
    destruct (fetch_bands server json_loads (subset_url p) names []
                (mkWorld sp1 (tr0 ++ [rb]))) as [r' w''] eqn:Ef.
    destruct (fetch_bands_inv server json_loads (subset_url p) sp1 names [] _ r' w'' Ef)
      as [[new [Hsent Hnew]] [Hnv [Hp' [Hk' Hw]]]]; simpl; auto.
    unfold subset_url in Ef. rewrite Ef in Hrun.
    destruct r' as [res|e]; inversion Hrun; subst; simpl in *.
    all: split; [exists (rb :: new); split; [rewrite Hsent, <- app_assoc; reflexivity
                 | split; [constructor; [exists p; split; [reflexivity | left; exact Hrb]
                          | eapply Forall_impl; [|exact Hnew]; intros q Hq;
                            exists p; split; [reflexivity | right; exact Hq]]
                          | discriminate]]|].
    all: split; [intros msg d Habs; inversion Habs; subst; exact (Hnv msg d eq_refl)|]; split; [exact Hp'|].
    all: split; [intros k Hk Hkb; rewrite Hk' by exact Hkb; apply Hdel; exact Hk|].
    all: intros _; destruct Hw as [Hw | [pre [q [b [H1 [H2 H3]]]]]];
      [left; rewrite Hw; split; [simpl; rewrite ?length_app; simpl; lia | reflexivity]
      | right; exists pre, q, b; simpl in H2; rewrite ?length_app in H2; simpl in H2;
        split; [exact H1 | split; [lia | exact H3]]].
  - (* one band *)
    change (mkRequest ((modis_rest_api ++ p) ++ "/subset?") (Some sp1) None)
      with (mkRequest (subset_url p) (Some sp1) None) in Hrun.
    set (q := mkRequest (subset_url p) (Some sp1) None) in Hrun.
    assert (Hq : subset_shape (subset_url p) q).
    { split; [reflexivity|]. split; [reflexivity|]. exists sp1. split; [reflexivity | exact Hp1]. }
    assert (Hnew : Forall (fun q0 => exists p0, Some (PStr p) = Some (PStr p0) /\
                     (q0 = bands_request py_str p0 \/ subset_shape (subset_url p0) q0)) [q]).
    { constructor; [|constructor]. exists p. split; [reflexivity | right; exact Hq]. }
    destruct (server tr0 q) as [text|] eqn:Es; unfold_m;
      [destruct (json_loads text) as [v|] eqn:Ej; unfold_m|];
      inversion Hrun; subst; simpl.
    all: split; [exists [q]; split; [reflexivity | split; [exact Hnew | discriminate]]|].
    all: split; [intros msg d Habs; discriminate Habs|]; split; [exact Hp1|].
    all: split; [intros k Hk _; apply Hdel; exact Hk|].
    all: intros Hall; inversion Hall; subst; discriminate.
Qed.

Lemma get_data_all_bands_run sp0 tr0 p btext bdoc names :
  key_diff sp0 = [] ->
  sget "product" sp0 = Some (PStr p) ->
  sget "band" sp0 = Some (PStr "all") ->
  server tr0 (bands_request py_str p) = Some btext ->
  json_loads btext = Some bdoc ->
  band_names bdoc = Ok names ->
  get_data server json_loads py_str (mkWorld sp0 tr0) =
    match fetch_bands server json_loads (subset_url p) names []
            (mkWorld (sdel "product" sp0) (tr0 ++ [bands_request py_str p])) with
    | (Ok a, w) => (Ok (PDict a), w)
    | (Raise e, w) => (Raise e, w)
    end.
Proof.
  intros Hkeys Hp Hall Hbs Hbj Hn.
  unfold get_data. unfold_m. rewrite Hkeys.
  cbn -[String.append key_diff sdel py_eq_all band_names hashable].
  rewrite Hp. cbn -[String.append key_diff sdel py_eq_all band_names hashable].
  rewrite sget_sdel_other, Hall by discriminate.
  replace (py_eq_all (PStr "all")) with true by reflexivity.
  cbn -[String.append key_diff sdel py_eq_all band_names hashable].
  unfold get_bands. unfold_m.
  change (mkRequest (modis_rest_api ++ (py_str (PStr p) ++ "/bands")) None (Some json_header))
    with (bands_request py_str p).
  rewrite Hbs. unfold_m. rewrite Hbj. unfold_m. rewrite Hn. unfold_m.
  reflexivity.
Qed.

Lemma get_data_invalid_run sp0 tr0 :
  key_diff sp0 <> [] ->
  get_data server json_loads py_str (mkWorld sp0 tr0) =
    (Raise (ValueError "Invalid search paramters: " (key_diff sp0)), mkWorld sp0 tr0).
Proof.
  intros Hne. unfold get_data. unfold_m.
  destruct (key_diff sp0) eqn:E; [contradiction | reflexivity].
Qed.

End GetData.

(** ** The claims *)

Section Claims.

Variable server : list request -> request -> option string.
Variable json_loads : string -> option pyval.
Variable py_str : pyval -> string.

(** C1: in all-bands mode, [get_data] issues the [get_bands] request once,
    then one subset request per listed band name, in the listed order, with
    [band] set to that name; when every request succeeds it returns a dict
    with one entry per listed band name, holding the decoded body of that
    band's (last) request.  Band names are strings, as the catalogue lists
    them; on str keys [py_key_eqb] is Python's key equality. *)
Theorem get_data_all_bands_fanout (sp0 : sdict) (tr0 : list request) (p btext : string)
    (bdoc : pyval) (names vs : list pyval)
    (Hkeys : key_diff sp0 = [])
    (Hp : sget "product" sp0 = Some (PStr p))
    (Hall : sget "band" sp0 = Some (PStr "all"))
    (Hbs : server tr0 (bands_request py_str p) = Some btext)
    (Hbj : json_loads btext = Some bdoc)
    (Hn : band_names bdoc = Ok names)
    (Hs : Forall (fun b => exists s, b = PStr s) names)
    (Hok : loop_ok server json_loads (subset_url p) (sdel "product" sp0)
             (tr0 ++ [bands_request py_str p]) names vs) :
  fst (get_data server json_loads py_str (mkWorld sp0 tr0)) =
    Ok (PDict (results_of names vs)) /\
  sent (snd (get_data server json_loads py_str (mkWorld sp0 tr0))) =
    (tr0 ++ bands_request py_str p
         :: map (subset_request (subset_url p) (sdel "product" sp0)) names)%list /\
  NoDup (map fst (results_of names vs)) /\
  (forall b, In b (map fst (results_of names vs)) <-> In b names) /\
  (forall b, pget b (results_of names vs) =
             option_map snd (find (fun bv => py_key_eqb b (fst bv))
                                  (rev (combine names vs)))).
Proof.
  assert (Hh : Forall (fun b => hashable b = true) names)
    by (eapply Forall_impl; [|exact Hs]; intros b [s ->]; reflexivity).
  rewrite (get_data_all_bands_run server json_loads py_str sp0 tr0 p btext bdoc names
             Hkeys Hp Hall Hbs Hbj Hn).
  destruct (fetch_bands_ok server json_loads _ _ _ _ _ Hok Hh (sdel "product" sp0) [])
    as [sp' [Hrun _]]; [reflexivity|].
  rewrite Hrun. simpl.
  pose proof (loop_ok_length server json_loads _ _ _ _ _ Hok) as Hlen.
  split; [reflexivity|]. split; [rewrite <- app_assoc; reflexivity|].
  unfold results_of. split; [|split].
  - apply nodup_fold; [|constructor].
    exact (Forall_combine_fst (fun b => hashable b = true) names vs Hh).
  - intros b. rewrite keys_fold, map_fst_combine by (symmetry; exact Hlen). simpl. tauto.
  - intros b. rewrite pget_fold. destruct (find _ _); reflexivity.
Qed.

(** C2: a dict with a key outside the recognised set makes [get_data]
    raise [ValueError] carrying exactly the unknown keys, before any
    request and without touching the dict. *)
Theorem get_data_rejects_unknown_keys (sp0 : sdict) (tr0 : list request)
    (Hbad : exists k, In k (map fst sp0) /\ ~ In k default_args) :
  get_data server json_loads py_str (mkWorld sp0 tr0) =
    (Raise (ValueError "Invalid search paramters: " (key_diff sp0)), mkWorld sp0 tr0) /\
  (forall k, In k (key_diff sp0) <-> In k (map fst sp0) /\ ~ In k default_args).
Proof.
  split.
  - apply get_data_invalid_run. apply key_diff_cons. exact Hbad.
  - apply key_diff_spec.
Qed.

(** C3: in all-bands mode, when the request or the JSON decoding of one
    band fails after the earlier bands succeeded, [get_data] raises; the
    failing band's request is the last one issued and no dict is
    returned. *)
Theorem get_data_band_failure_aborts (sp0 : sdict) (tr0 : list request) (p btext : string)
    (bdoc b : pyval) (pre post vs : list pyval)
    (Hkeys : key_diff sp0 = [])
    (Hp : sget "product" sp0 = Some (PStr p))
    (Hall : sget "band" sp0 = Some (PStr "all"))
    (Hbs : server tr0 (bands_request py_str p) = Some btext)
    (Hbj : json_loads btext = Some bdoc)
    (Hn : band_names bdoc = Ok (pre ++ b :: post)%list)
    (Hh : Forall (fun b => hashable b = true) pre)
    (Hok : loop_ok server json_loads (subset_url p) (sdel "product" sp0)
             (tr0 ++ [bands_request py_str p]) pre vs)
    (Hfail : req_fails server json_loads
               (tr0 ++ bands_request py_str p
                    :: map (subset_request (subset_url p) (sdel "product" sp0)) pre)
               (subset_request (subset_url p) (sdel "product" sp0) b)) :
  (exists e, fst (get_data server json_loads py_str (mkWorld sp0 tr0)) = Raise e) /\
  sent (snd (get_data server json_loads py_str (mkWorld sp0 tr0))) =
    (tr0 ++ bands_request py_str p
         :: map (subset_request (subset_url p) (sdel "product" sp0)) (pre ++ [b]))%list.
Proof.
  rewrite (get_data_all_bands_run server json_loads py_str sp0 tr0 p btext bdoc _
             Hkeys Hp Hall Hbs Hbj Hn).
  destruct (fetch_bands_fail server json_loads _ _ _ _ _ Hok Hh b post
              (sdel "product" sp0) []) as [e Hrun]; [reflexivity| |].
  - rewrite <- app_assoc. exact Hfail.
  - rewrite Hrun. simpl. split; [exists e; reflexivity | rewrite <- app_assoc; reflexivity].
Qed.

(** C4: every request [get_data] issues has the [product] value in its
    path, right after the service root, and never has [product] among its
    query parameters. *)
Theorem get_data_product_in_path
    (Hstr : forall s, py_str (PStr s) = s) (sp0 : sdict) (tr0 : list request) :
  exists new,
    sent (snd (get_data server json_loads py_str (mkWorld sp0 tr0))) = (tr0 ++ new)%list /\
    Forall (fun q => exists p, sget "product" sp0 = Some (PStr p) /\
              (exists sfx, req_url q = modis_rest_api ++ p ++ sfx) /\
              (req_params q = None \/
               exists ps, req_params q = Some ps /\ sget "product" ps = None)) new.
Proof.
  destruct (get_data server json_loads py_str (mkWorld sp0 tr0)) as [r w'] eqn:E. simpl.
  destruct (key_diff sp0) as [|k ks] eqn:Kd.
  - destruct (get_data_inv server json_loads py_str sp0 tr0 r w' E Kd)
      as [[new [Hsent [Hnew _]]] _].
    exists new. split; [exact Hsent|].
    eapply Forall_impl; [|exact Hnew]. intros q [p0 [Hp0 [Hb | [Hu [Hh [ps [Hps Hpp]]]]]]].
    + exists p0. split; [exact Hp0|]. subst q. unfold bands_request. simpl.
      rewrite Hstr. split; [exists "/bands"; reflexivity | left; reflexivity].
    + exists p0. split; [exact Hp0|]. rewrite Hu. unfold subset_url.
      split; [exists "/subset?"; apply string_app_assoc | right; exists ps; auto].
  - rewrite get_data_invalid_run in E by (rewrite Kd; discriminate).
    inversion E; subst. exists []. simpl. split; [now rewrite app_nil_r | constructor].
Qed.

(** C5: when [band] is not ["all"], [get_data] issues exactly one request,
    to [{product}/subset?] without header, with every other parameter of the
    dict (band included) as query parameters, and returns the decoded body
    unchanged. *)
Theorem get_data_single_band (sp0 : sdict) (tr0 : list request) (p : string) (v : pyval)
    (Hkeys : key_diff sp0 = [])
    (Hp : sget "product" sp0 = Some (PStr p))
    (Hb : sget "band" sp0 = Some v)
    (Hv : py_eq_all v = false) :
  let q := mkRequest (subset_url p) (Some (sdel "product" sp0)) None in
  get_data server json_loads py_str (mkWorld sp0 tr0) =
    (match server tr0 q with
     | Some text => match json_loads text with
                    | Some j => Ok j
                    | None => Raise (DecodeError text)
                    end
     | None => Raise (TransportError q)
     end,
     mkWorld (sdel "product" sp0) (tr0 ++ [q])) /\
  (forall k, k <> "product" -> sget k (sdel "product" sp0) = sget k sp0).
Proof.
  intros q. split.
  - unfold get_data. unfold_m. rewrite Hkeys.
    cbn -[String.append key_diff sdel py_eq_all band_names hashable].
    rewrite Hp. cbn -[String.append key_diff sdel py_eq_all band_names hashable].
    rewrite sget_sdel_other, Hb, Hv by discriminate.
    cbn -[String.append key_diff sdel py_eq_all band_names hashable].
    change (mkRequest ((modis_rest_api ++ p) ++ "/subset?") (Some (sdel "product" sp0)) None)
      with q.
    destruct (server tr0 q) as [text|]; unfold_m; [|reflexivity].
    destruct (json_loads text); reflexivity.
  - intros k Hk. apply sget_sdel_other. congruence.
Qed.

(** C6: a dict with only recognised keys but no [product] makes [get_data]
    raise [KeyError('product')] (not [ValueError]) at the [pop], before any
    request and with the dict unchanged. *)
Theorem get_data_missing_product (sp0 : sdict) (tr0 : list request)
    (Hkeys : key_diff sp0 = [])
    (Hnop : sget "product" sp0 = None) :
  get_data server json_loads py_str (mkWorld sp0 tr0) =
    (Raise (KeyError (PStr "product")), mkWorld sp0 tr0).
Proof.
  unfold get_data. unfold_m. rewrite Hkeys.
  cbn -[String.append key_diff sdel py_eq_all band_names hashable].
  rewrite Hnop. reflexivity.
Qed.

(** C7: [get_dates] issues one GET to [{product}/dates?] whose query string
    is [latitude=<lat>] followed by [&longitude=<lon>]. *)
Theorem get_dates_query_order (product longitude latitude : pyval) (w : world) :
  sent (snd (get_dates server json_loads py_str product longitude latitude w)) =
    (sent w ++
     [mkRequest (modis_rest_api ++ py_str product ++ "/dates?latitude=" ++ py_str latitude
                 ++ "&longitude=" ++ py_str longitude)
                None (Some json_header)])%list.
Proof.
  unfold get_dates. unfold_m. rewrite !string_app_assoc.
  destruct (server _ _) as [text|]; unfold_m; [|reflexivity].
  destruct (json_loads text); reflexivity.
Qed.

(** C8: [get_products], [get_bands] and [get_dates] each issue one request
    carrying [Accept: application/json]; the requests [get_data] issues are
    the [get_bands] request and subset requests, which carry no header. *)
Theorem catalog_requests_accept_json :
  (forall w, sent (snd (get_products server json_loads w)) =
     (sent w ++ [mkRequest (modis_rest_api ++ "products") None (Some json_header)])%list) /\
  (forall product w, sent (snd (get_bands server json_loads py_str product w)) =
     (sent w ++ [mkRequest (modis_rest_api ++ (py_str product ++ "/bands")) None
                           (Some json_header)])%list) /\
  (forall product longitude latitude w, exists q,
     sent (snd (get_dates server json_loads py_str product longitude latitude w)) =
       (sent w ++ [q])%list /\ req_headers q = Some json_header) /\
  (forall sp0 tr0, exists new,
     sent (snd (get_data server json_loads py_str (mkWorld sp0 tr0))) = (tr0 ++ new)%list /\
     Forall (fun q => (exists p, q = bands_request py_str p /\
                                 req_headers q = Some json_header) \/
                      (exists p, req_url q = subset_url p /\ req_headers q = None)) new).
Proof.
  split; [|split; [|split]].
  - intros w. unfold get_products. unfold_m.
    destruct (server _ _) as [text|]; unfold_m; [|reflexivity].
    destruct (json_loads text); reflexivity.
  - intros product w. unfold get_bands. unfold_m.
    destruct (server _ _) as [text|]; unfold_m; [|reflexivity].
    destruct (json_loads text); reflexivity.
  - intros product longitude latitude w. eexists. split.
    + apply get_dates_query_order.
    + reflexivity.
  - intros sp0 tr0.
    destruct (get_data server json_loads py_str (mkWorld sp0 tr0)) as [r w'] eqn:E. simpl.
    destruct (key_diff sp0) as [|k ks] eqn:Kd.
    + destruct (get_data_inv server json_loads py_str sp0 tr0 r w' E Kd)
        as [[new [Hsent [Hnew _]]] _].
      exists new. split; [exact Hsent|].
      eapply Forall_impl; [|exact Hnew].
      intros q [p0 [_ [Hb | [Hu [Hh _]]]]].
      * left. exists p0. subst q. split; reflexivity.
      * right. exists p0. split; assumption.
    + rewrite get_data_invalid_run in E by (rewrite Kd; discriminate).
      inversion E; subst. exists []. simpl. split; [now rewrite app_nil_r | constructor].
Qed.

(** C9: once validation passes, [get_data] leaves the caller's dict without
    [product], with its other keys except [band] untouched, on success and
    on error alike.  In all-bands mode, as soon as one band request has been
    issued (more than the catalogue request), the dict is left equal to the
    query parameters of the last request issued, i.e. [product] popped and
    [band] set to the last band processed, not restored to ['all']; it is
    left as it was after the [pop] only when no band request was issued. *)
Theorem get_data_mutates_caller_params (sp0 : sdict) (tr0 : list request)
    (Hkeys : key_diff sp0 = []) :
  let w' := snd (get_data server json_loads py_str (mkWorld sp0 tr0)) in
  sget "product" (search_params w') = None /\
  (forall k, k <> "product" -> k <> "band" -> sget k (search_params w') = sget k sp0) /\
  (sget "band" sp0 = Some (PStr "all") ->
     (length (sent w') <= S (length tr0) /\ search_params w' = sdel "product" sp0) \/
     exists pre q b, sent w' = (pre ++ [q])%list /\ S (length tr0) < length (sent w') /\
                     req_params q = Some (search_params w') /\
                     search_params w' = sset "band" b (sdel "product" sp0)).
Proof.
  intros w'. subst w'.
  destruct (get_data server json_loads py_str (mkWorld sp0 tr0)) as [r w'] eqn:E. simpl.
  destruct (get_data_inv server json_loads py_str sp0 tr0 r w' E Hkeys)
    as [_ [_ H]].
  exact H.
Qed.

(** C10: validation checks only for unknown keys: a dict of recognised keys
    with [product] (a string) and [band] raises no [ValueError] and issues
    at least one request, whatever other keys are missing. *)
Theorem get_data_no_required_key_check (sp0 : sdict) (tr0 : list request)
    (p : string) (v : pyval)
    (Hkeys : key_diff sp0 = [])
    (Hp : sget "product" sp0 = Some (PStr p))
    (Hb : sget "band" sp0 = Some v) :
  (forall msg d, fst (get_data server json_loads py_str (mkWorld sp0 tr0)) <>
                 Raise (ValueError msg d)) /\
  exists q rest,
    sent (snd (get_data server json_loads py_str (mkWorld sp0 tr0))) = (tr0 ++ q :: rest)%list.
Proof.
  destruct (get_data server json_loads py_str (mkWorld sp0 tr0)) as [r w'] eqn:E. simpl.
  destruct (get_data_inv server json_loads py_str sp0 tr0 r w' E Hkeys)
    as [[new [Hsent [_ Hne]]] [Hnv _]].
  split; [exact Hnv|].
  destruct new as [|q rest]; [exfalso; exact (Hne p v Hp Hb eq_refl)|].
  exists q, rest. exact Hsent.
Qed.

End Claims.

(** ** The theorems at concrete inputs *)


Lemma get_data_all_bands_fanout_witness :
  fst (get_data ex_server ex_json_loads ex_py_str (mkWorld (ex_params (PStr "all")) [])) =
    Ok (PDict (results_of [PStr "b1"; PStr "b2"] [ex_b1_doc; ex_b2_doc])).
Proof.
  refine (proj1 (get_data_all_bands_fanout ex_server ex_json_loads ex_py_str
                   (ex_params (PStr "all")) [] ex_product "BANDS" ex_bands_doc
                   [PStr "b1"; PStr "b2"] [ex_b1_doc; ex_b2_doc]
                   eq_refl eq_refl eq_refl eq_refl eq_refl eq_refl _ _)).
  - constructor; [eexists; reflexivity|].
    constructor; [eexists; reflexivity | constructor].
  - econstructor; [reflexivity | reflexivity |].
    econstructor; [reflexivity | reflexivity |].
    constructor.
Defined.

Lemma get_data_rejects_unknown_keys_witness :
  get_data ex_server ex_json_loads ex_py_str
    (mkWorld [("product", PStr ex_product); ("band", PStr "b1"); ("colour", PStr "red")] []) =
  (Raise (ValueError "Invalid search paramters: " ["colour"]),
   mkWorld [("product", PStr ex_product); ("band", PStr "b1"); ("colour", PStr "red")] []).
Proof.
  refine (proj1 (get_data_rejects_unknown_keys ex_server ex_json_loads ex_py_str _ _ _)).
  exists "colour". split.
  - simpl. auto.
  - vm_compute. intuition discriminate.
Defined.

Lemma get_data_band_failure_aborts_witness :
  sent (snd (get_data ex_server_b2_down ex_json_loads ex_py_str
               (mkWorld (ex_params (PStr "all")) []))) =
  ([] ++ bands_request ex_py_str ex_product
      :: map (subset_request (subset_url ex_product) (sdel "product" (ex_params (PStr "all"))))
             ([PStr "b1"] ++ [PStr "b2"]))%list.
Proof.
  refine (proj2 (get_data_band_failure_aborts ex_server_b2_down ex_json_loads ex_py_str
                   (ex_params (PStr "all")) [] ex_product "BANDS" ex_bands_doc (PStr "b2")
                   [PStr "b1"] [] [ex_b1_doc]
                   eq_refl eq_refl eq_refl eq_refl eq_refl eq_refl _ _ _)).
  - repeat constructor.
  - econstructor; [reflexivity | reflexivity |]. constructor.
  - left. reflexivity.
Defined.

Lemma get_data_product_in_path_witness :
  exists new,
    sent (snd (get_data ex_server ex_json_loads ex_py_str
                 (mkWorld (ex_params (PStr "all")) []))) = ([] ++ new)%list /\
    Forall (fun q => exists p, sget "product" (ex_params (PStr "all")) = Some (PStr p) /\
              (exists sfx, req_url q = modis_rest_api ++ p ++ sfx) /\
              (req_params q = None \/
               exists ps, req_params q = Some ps /\ sget "product" ps = None)) new.
Proof.
  exact (get_data_product_in_path ex_server ex_json_loads ex_py_str
           (fun s => eq_refl) (ex_params (PStr "all")) []).
Defined.

Lemma get_data_single_band_witness :
  get_data ex_server ex_json_loads ex_py_str (mkWorld (ex_params (PStr "b1")) []) =
    (Ok ex_b1_doc,
     mkWorld (sdel "product" (ex_params (PStr "b1")))
       [mkRequest (subset_url ex_product) (Some (sdel "product" (ex_params (PStr "b1")))) None]).
Proof.
  rewrite (proj1 (get_data_single_band ex_server ex_json_loads ex_py_str
                    (ex_params (PStr "b1")) [] ex_product (PStr "b1")
                    eq_refl eq_refl eq_refl eq_refl)).
  reflexivity.
Defined.

Lemma get_data_missing_product_witness :
  get_data ex_server ex_json_loads ex_py_str
    (mkWorld [("band", PStr "b1"); ("latitude", PNum "39.56499")] []) =
  (Raise (KeyError (PStr "product")),
   mkWorld [("band", PStr "b1"); ("latitude", PNum "39.56499")] []).
Proof.
  exact (get_data_missing_product ex_server ex_json_loads ex_py_str
           [("band", PStr "b1"); ("latitude", PNum "39.56499")] [] eq_refl eq_refl).
Defined.

Lemma get_data_mutates_caller_params_witness :
  let w' := snd (get_data ex_server_b2_down ex_json_loads ex_py_str
                   (mkWorld (ex_params (PStr "all")) [])) in
  exists pre q b, sent w' = (pre ++ [q])%list /\ 1 < length (sent w') /\
                  req_params q = Some (search_params w') /\
                  search_params w' = sset "band" b (sdel "product" (ex_params (PStr "all"))).
Proof.
  destruct (proj2 (proj2 (get_data_mutates_caller_params ex_server_b2_down ex_json_loads
                            ex_py_str (ex_params (PStr "all")) [] eq_refl)) eq_refl)
    as [[Hl _] | H].
  - exfalso. vm_compute in Hl. lia.
  - exact H.
Defined.

Lemma get_data_no_required_key_check_witness :
  exists q rest,
    sent (snd (get_data ex_server ex_json_loads ex_py_str
                 (mkWorld [("product", PStr ex_product); ("band", PStr "b1")] []))) =
    ([] ++ q :: rest)%list.
Proof.
  exact (proj2 (get_data_no_required_key_check ex_server ex_json_loads ex_py_str
                  [("product", PStr ex_product); ("band", PStr "b1")] [] ex_product (PStr "b1")
                  eq_refl eq_refl eq_refl)).
Defined.

(** The date query of the specification's example. *)
Example get_dates_example :
  sent (snd (get_dates ex_server ex_json_loads ex_py_str (PStr "MYD09A1")
               (PNum "-121.55527") (PNum "39.56499") (mkWorld [] []))) =
  [mkRequest
     "https://modis.ornl.gov/rst/api/v1/MYD09A1/dates?latitude=39.56499&longitude=-121.55527"
     None (Some json_header)].
Proof. reflexivity. Qed.

(** ** Further properties of the module *)

Section Extras.

Variable server : list request -> request -> option string.
Variable json_loads : string -> option pyval.
Variable py_str : pyval -> string.

(** Calling [get_data] a second time on the dict the first call was given
    always raises before any request, leaving everything as the first call
    left it: the same [ValueError] when the dict has unknown keys, and
    otherwise [KeyError('product')], since the first call popped
    [product]. *)
Theorem get_data_second_call_raises (sp0 : sdict) (tr0 : list request) :
  let w1 := snd (get_data server json_loads py_str (mkWorld sp0 tr0)) in
  get_data server json_loads py_str w1 =
    (Raise (match key_diff sp0 with
            | [] => KeyError (PStr "product")
            | diff => ValueError "Invalid search paramters: " diff
            end), w1).
Proof.
  cbv zeta.
  destruct (get_data server json_loads py_str (mkWorld sp0 tr0)) as [r w'] eqn:E. simpl.
  destruct (key_diff sp0) as [|k ks] eqn:Kd.
  - destruct (get_data_inv server json_loads py_str sp0 tr0 r w' E Kd)
      as [_ [_ [Hp [Hk _]]]].
    pose proof (key_diff_after sp0 (search_params w') Kd Hp Hk) as Kd'.
    destruct w' as [sp' tr']. simpl in *.
    unfold get_data. unfold_m. rewrite Kd'.
    cbn -[String.append key_diff sdel py_eq_all band_names hashable].
    rewrite Hp. reflexivity.
  - rewrite get_data_invalid_run in E by (rewrite Kd; discriminate).
    inversion E; subst.
    rewrite get_data_invalid_run by (rewrite Kd; discriminate). rewrite Kd. reflexivity.
Qed.

(** A [product] value that is not a str makes [modis_rest_api + product]
    raise [TypeError] before any request, after [product] has already been
    popped from the caller's dict. *)
Theorem get_data_product_not_string (sp0 : sdict) (tr0 : list request) (v : pyval)
    (Hkeys : key_diff sp0 = [])
    (Hp : sget "product" sp0 = Some v)
    (Hv : forall s, v <> PStr s) :
  get_data server json_loads py_str (mkWorld sp0 tr0) =
    (Raise (TypeError "can only concatenate str (not another type) to str"),
     mkWorld (sdel "product" sp0) tr0).
Proof.
  unfold get_data. unfold_m. rewrite Hkeys.
  cbn -[String.append key_diff sdel py_eq_all band_names hashable].
  rewrite Hp.
  destruct v as [| | |s| |]; try reflexivity.
  exfalso. exact (Hv s eq_refl).
Qed.

(** A dict with a str [product] but no [band] key makes [get_data] raise
    [KeyError('band')] before any request, after [product] has already
    been popped from the caller's dict. *)
Theorem get_data_missing_band (sp0 : sdict) (tr0 : list request) (p : string)
    (Hkeys : key_diff sp0 = [])
    (Hp : sget "product" sp0 = Some (PStr p))
    (Hb : sget "band" sp0 = None) :
  get_data server json_loads py_str (mkWorld sp0 tr0) =
    (Raise (KeyError (PStr "band")), mkWorld (sdel "product" sp0) tr0).
Proof.
  unfold get_data. unfold_m. rewrite Hkeys.
  cbn -[String.append key_diff sdel py_eq_all band_names hashable].
  rewrite Hp. cbn -[String.append key_diff sdel py_eq_all band_names hashable].
  rewrite sget_sdel_other, Hb by discriminate. reflexivity.
Qed.

(** In all-bands mode, when the band catalogue request fails, its body is
    not JSON, or the band names cannot be extracted from it, [get_data]
    raises with the catalogue request as the only request issued, and the
    caller's dict left without [product] and with [band] still ['all']. *)
Theorem get_data_catalogue_failure (sp0 : sdict) (tr0 : list request) (p : string)
    (Hkeys : key_diff sp0 = [])
    (Hp : sget "product" sp0 = Some (PStr p))
    (Hall : sget "band" sp0 = Some (PStr "all"))
    (Hcat : server tr0 (bands_request py_str p) = None \/
            exists text, server tr0 (bands_request py_str p) = Some text /\
              (json_loads text = None \/
               exists bdoc e, json_loads text = Some bdoc /\ band_names bdoc = Raise e)) :
  exists e,
    get_data server json_loads py_str (mkWorld sp0 tr0) =
      (Raise e, mkWorld (sdel "product" sp0) (tr0 ++ [bands_request py_str p])).
Proof.
  unfold get_data. unfold_m. rewrite Hkeys.
  cbn -[String.append key_diff sdel py_eq_all band_names hashable].
  rewrite Hp. cbn -[String.append key_diff sdel py_eq_all band_names hashable].
  rewrite sget_sdel_other, Hall by discriminate.
  replace (py_eq_all (PStr "all")) with true by reflexivity.
  cbn -[String.append key_diff sdel py_eq_all band_names hashable].
  unfold get_bands. unfold_m.
  change (mkRequest (modis_rest_api ++ (py_str (PStr p) ++ "/bands")) None (Some json_header))
    with (bands_request py_str p).
  destruct Hcat as [Hn | [text [Ht [Hj | [bdoc [e [Hj He]]]]]]].
  - rewrite Hn. eexists; reflexivity.
  - rewrite Ht. unfold_m. rewrite Hj. eexists; reflexivity.
  - rewrite Ht. unfold_m. rewrite Hj. unfold_m. rewrite He. eexists; reflexivity.
Qed.

(** In all-bands mode, a catalogue that lists no band makes [get_data]
    return an empty dict after the catalogue request alone, leaving the
    caller's dict without [product] and with [band] still ['all']. *)
Theorem get_data_empty_catalogue (sp0 : sdict) (tr0 : list request) (p btext : string)
    (bdoc : pyval)
    (Hkeys : key_diff sp0 = [])
    (Hp : sget "product" sp0 = Some (PStr p))
    (Hall : sget "band" sp0 = Some (PStr "all"))
    (Hbs : server tr0 (bands_request py_str p) = Some btext)
    (Hbj : json_loads btext = Some bdoc)
    (Hn : band_names bdoc = Ok []) :
  get_data server json_loads py_str (mkWorld sp0 tr0) =
    (Ok (PDict []), mkWorld (sdel "product" sp0) (tr0 ++ [bands_request py_str p])).
Proof.
  rewrite (get_data_all_bands_run server json_loads py_str sp0 tr0 p btext bdoc []
             Hkeys Hp Hall Hbs Hbj Hn).
  reflexivity.
Qed.

(** In all-bands mode, a band name that is not hashable (a list or a dict)
    still gets its request issued, and then [results[band] = result]
    raises [TypeError]: the loop stops there, with [band] of the caller's
    dict set to that name. *)
Theorem get_data_unhashable_band (sp0 : sdict) (tr0 : list request) (p btext text : string)
    (bdoc b v : pyval) (pre post vs : list pyval)
    (Hkeys : key_diff sp0 = [])
    (Hp : sget "product" sp0 = Some (PStr p))
    (Hall : sget "band" sp0 = Some (PStr "all"))
    (Hbs : server tr0 (bands_request py_str p) = Some btext)
    (Hbj : json_loads btext = Some bdoc)
    (Hn : band_names bdoc = Ok (pre ++ b :: post)%list)
    (Hh : Forall (fun b => hashable b = true) pre)
    (Hok : loop_ok server json_loads (subset_url p) (sdel "product" sp0)
             (tr0 ++ [bands_request py_str p]) pre vs)
    (Hsrv : server (tr0 ++ bands_request py_str p
                        :: map (subset_request (subset_url p) (sdel "product" sp0)) pre)
                   (subset_request (subset_url p) (sdel "product" sp0) b) = Some text)
    (Hj : json_loads text = Some v)
    (Hb : hashable b = false) :
  get_data server json_loads py_str (mkWorld sp0 tr0) =
    (Raise (TypeError "unhashable type"),
     mkWorld (sset "band" b (sdel "product" sp0))
       (tr0 ++ bands_request py_str p
            :: map (subset_request (subset_url p) (sdel "product" sp0)) (pre ++ [b]))).
Proof.
  rewrite (get_data_all_bands_run server json_loads py_str sp0 tr0 p btext bdoc _
             Hkeys Hp Hall Hbs Hbj Hn).
  destruct (fetch_bands_app server json_loads _ _ _ _ _ Hok Hh (b :: post)
              (sdel "product" sp0) []) as [sp' [Hsp' Hrun]]; [reflexivity|].
  rewrite Hrun. cbn [fetch_bands]. unfold_m. rewrite Hsp'.
  unfold subset_request in *. rewrite <- app_assoc. simpl. rewrite Hsrv, Hj, Hb.
  unfold_m. rewrite map_app, <- app_assoc. reflexivity.
Qed.

(** In all-bands mode, when every band request succeeds and at least one
    band is listed, the caller's dict is left without [product] and with
    [band] set to the last listed band name instead of ['all']. *)
Theorem get_data_all_bands_final_dict (sp0 : sdict) (tr0 : list request) (p btext : string)
    (bdoc : pyval) (names vs : list pyval)
    (Hkeys : key_diff sp0 = [])
    (Hp : sget "product" sp0 = Some (PStr p))
    (Hall : sget "band" sp0 = Some (PStr "all"))
    (Hbs : server tr0 (bands_request py_str p) = Some btext)
    (Hbj : json_loads btext = Some bdoc)
    (Hn : band_names bdoc = Ok names)
    (Hne : names <> [])
    (Hh : Forall (fun b => hashable b = true) names)
    (Hok : loop_ok server json_loads (subset_url p) (sdel "product" sp0)
             (tr0 ++ [bands_request py_str p]) names vs) :
  search_params (snd (get_data server json_loads py_str (mkWorld sp0 tr0))) =
    sset "band" (last names PNone) (sdel "product" sp0).
Proof.
  rewrite (get_data_all_bands_run server json_loads py_str sp0 tr0 p btext bdoc names
             Hkeys Hp Hall Hbs Hbj Hn).
  destruct (fetch_bands_ok server json_loads _ _ _ _ _ Hok Hh (sdel "product" sp0) [])
    as [sp' [Hrun [_ Hcons]]]; [reflexivity|].
  rewrite Hrun. simpl. exact (Hcons Hne).
Qed.

(** [[band['band'] for band in bands['bands']]] recovers the names from a
    catalogue whose ['bands'] entry is a list of dicts each holding a
    ['band'] key (whatever else they hold), in list order. *)
Theorem band_names_catalogue (doc : list (pyval * pyval)) (entries bs : list pyval)
    (Hbands : pget (PStr "bands") doc = Some (PList entries))
    (Hent : Forall2 (fun e b => exists d, e = PDict d /\ pget (PStr "band") d = Some b)
              entries bs) :
  band_names (PDict doc) = Ok bs.
Proof.
  unfold band_names, py_getitem. rewrite Hbands. simpl. clear Hbands.
  induction Hent as [|e b es bs' [d [-> Hd]] _ IH]; [reflexivity|].
  simpl. rewrite Hd. rewrite IH. reflexivity.
Qed.

(** In the catalogue's ['bands'] list, the first dict without a ['band']
    key, after entries that all have one, makes the band-name extraction
    raise [KeyError('band')]. *)
Theorem band_names_entry_without_band (doc d : list (pyval * pyval)) (pre post : list pyval)
    (Hbands : pget (PStr "bands") doc = Some (PList (pre ++ PDict d :: post)))
    (Hpre : Forall (fun e => exists d' b, e = PDict d' /\ pget (PStr "band") d' = Some b) pre)
    (Hd : pget (PStr "band") d = None) :
  band_names (PDict doc) = Raise (KeyError (PStr "band")).
Proof.
  unfold band_names, py_getitem. rewrite Hbands. simpl. clear Hbands.
  induction Hpre as [|e pre' [d' [b [-> Hd']]] _ IH]; simpl.
  - rewrite Hd. reflexivity.
  - rewrite Hd'. rewrite IH. reflexivity.
Qed.

(** The [__main__] block sends exactly one request: the single-band query
    to [MYD09A1/subset?] without header, with every search term but
    [product] as query parameters; it yields the decoded body, and its dict
    is left without [product]. *)
Theorem main_block_single_request (w : world) :
  let q := mkRequest (modis_rest_api ++ "MYD09A1/subset?")
             (Some [("latitude", PNum "39.56499"); ("longitude", PNum "-121.55527");
                    ("band", PStr "sur_refl_b06"); ("startDate", PStr "A2003101");
                    ("endDate", PStr "A2003111"); ("kmAboveBelow", PNum "1");
                    ("kmLeftRight", PNum "1")]) None in
  main_block server json_loads py_str w =
    (match server (sent w) q with
     | Some text => match json_loads text with
                    | Some j => Ok j
                    | None => Raise (DecodeError text)
                    end
     | None => Raise (TransportError q)
     end,
     mkWorld (sdel "product" search_term) (sent w ++ [q])).
Proof.
  intros q. unfold main_block, get_data. unfold_m.
  replace (key_diff search_term) with (@nil string) by reflexivity.
  cbn -[String.append key_diff sdel py_eq_all band_names hashable].
  rewrite sget_sdel_other by discriminate.
  cbn -[String.append key_diff sdel py_eq_all band_names hashable].
  replace (py_eq_all (PStr "sur_refl_b06")) with false by reflexivity.
  cbn -[String.append key_diff sdel py_eq_all band_names hashable].
  change (mkRequest ((modis_rest_api ++ "MYD09A1") ++ "/subset?")
            (Some (sdel "product" search_term)) None) with q.
  destruct (server (sent w) q) as [text|]; unfold_m; [|reflexivity].
  destruct (json_loads text); reflexivity.
Qed.

End Extras.

Lemma get_data_product_not_string_witness :
  get_data ex_server ex_json_loads ex_py_str
    (mkWorld [("product", PNum "1"); ("band", PStr "b1")] []) =
  (Raise (TypeError "can only concatenate str (not another type) to str"),
   mkWorld [("band", PStr "b1")] []).
Proof.
  apply (get_data_product_not_string ex_server ex_json_loads ex_py_str
           [("product", PNum "1"); ("band", PStr "b1")] [] (PNum "1")).
  - reflexivity.
  - reflexivity.
  - intros s H. discriminate H.
Defined.

Lemma get_data_missing_band_witness :
  get_data ex_server ex_json_loads ex_py_str
    (mkWorld [("product", PStr ex_product); ("latitude", PNum "39.56499")] []) =
  (Raise (KeyError (PStr "band")), mkWorld [("latitude", PNum "39.56499")] []).
Proof.
  apply (get_data_missing_band ex_server ex_json_loads ex_py_str
           [("product", PStr ex_product); ("latitude", PNum "39.56499")] [] ex_product);
    reflexivity.
Defined.

Lemma get_data_catalogue_failure_witness :
  exists e,
    get_data ex_server (ex_json_loads_with (PDict [])) ex_py_str
      (mkWorld (ex_params (PStr "all")) []) =
    (Raise e, mkWorld (sdel "product" (ex_params (PStr "all")))
                      [bands_request ex_py_str ex_product]).
Proof.
  apply (get_data_catalogue_failure ex_server (ex_json_loads_with (PDict [])) ex_py_str
           (ex_params (PStr "all")) [] ex_product).
  - reflexivity.
  - reflexivity.
  - reflexivity.
  - right. exists "BANDS". split; [reflexivity|].
    right. exists (PDict []), (KeyError (PStr "bands")). split; reflexivity.
Defined.

Lemma get_data_empty_catalogue_witness :
  get_data ex_server (ex_json_loads_with (PDict [(PStr "bands", PList [])])) ex_py_str
    (mkWorld (ex_params (PStr "all")) []) =
  (Ok (PDict []), mkWorld (sdel "product" (ex_params (PStr "all")))
                          [bands_request ex_py_str ex_product]).
Proof.
  apply (get_data_empty_catalogue ex_server
           (ex_json_loads_with (PDict [(PStr "bands", PList [])])) ex_py_str
           (ex_params (PStr "all")) [] ex_product "BANDS"
           (PDict [(PStr "bands", PList [])])); reflexivity.
Defined.

Lemma get_data_unhashable_band_witness :
  fst (get_data ex_server_any (ex_json_loads_with ex_odd_bands_doc) ex_py_str
         (mkWorld (ex_params (PStr "all")) [])) =
  Raise (TypeError "unhashable type").
Proof.
  rewrite (get_data_unhashable_band ex_server_any (ex_json_loads_with ex_odd_bands_doc)
             ex_py_str (ex_params (PStr "all")) [] ex_product "BANDS" "DATA"
             ex_odd_bands_doc (PList []) (PDict [(PStr "band", PStr "DATA")])
             [PStr "b1"] [] [PDict [(PStr "band", PStr "DATA")]]).
  - reflexivity.
  - reflexivity.
  - reflexivity.
  - reflexivity.
  - reflexivity.
  - reflexivity.
  - reflexivity.
  - repeat constructor.
  - econstructor; [reflexivity | reflexivity | constructor].
  - reflexivity.
  - reflexivity.
  - reflexivity.
Defined.

Lemma band_names_catalogue_witness :
  band_names (PDict [(PStr "bands",
                      PList [PDict [(PStr "band", PStr "b1"); (PStr "units", PStr "reflectance")];
                             PDict [(PStr "description", PStr "x"); (PStr "band", PStr "b2")]])]) =
  Ok [PStr "b1"; PStr "b2"].
Proof.
  apply band_names_catalogue with
    (entries := [PDict [(PStr "band", PStr "b1"); (PStr "units", PStr "reflectance")];
                 PDict [(PStr "description", PStr "x"); (PStr "band", PStr "b2")]]).
  - reflexivity.
  - constructor; [eexists; split; reflexivity|].
    constructor; [eexists; split; reflexivity | constructor].
Defined.

Lemma band_names_entry_without_band_witness :
  band_names (PDict [(PStr "bands",
                      PList [PDict [(PStr "band", PStr "b1")];
                             PDict [(PStr "units", PStr "reflectance")]])]) =
  Raise (KeyError (PStr "band")).
Proof.
  apply band_names_entry_without_band with
    (pre := [PDict [(PStr "band", PStr "b1")]]) (d := [(PStr "units", PStr "reflectance")])
    (post := []).
  - reflexivity.
  - constructor; [eexists; eexists; split; reflexivity | constructor].
  - reflexivity.
Defined.

Lemma get_data_all_bands_final_dict_witness :
  search_params (snd (get_data ex_server ex_json_loads ex_py_str
                        (mkWorld (ex_params (PStr "all")) []))) =
  sset "band" (PStr "b2") (sdel "product" (ex_params (PStr "all"))).
Proof.
  apply (get_data_all_bands_final_dict ex_server ex_json_loads ex_py_str
           (ex_params (PStr "all")) [] ex_product "BANDS" ex_bands_doc
           [PStr "b1"; PStr "b2"] [ex_b1_doc; ex_b2_doc]).
  - reflexivity.
  - reflexivity.
  - reflexivity.
  - reflexivity.
  - reflexivity.
  - reflexivity.
  - discriminate.
  - repeat constructor.
  - econstructor; [reflexivity | reflexivity |].
    econstructor; [reflexivity | reflexivity |].
    constructor.
Defined.
